(** * datascience.predicates: predicate factories and their combination algebra

    A shallow embedding of [src/datascience/predicates.py].

    - [Py]: the part of the host language the module relies on: values,
      exceptions, rich comparisons, [in], short-circuit [and]/[or].
    - [Np]: [numpy.nextafter] on binary64, over the IEEE-754 reference
      model of the standard library ([SpecFloat], prec = 53, emax = 1024).
    - [Predicates]: the module itself: [_combinable], [_not],
      [_equal_or_float_equal], the class [are] and the attribute
      assignments that run when the module is imported. *)

From Stdlib Require Import ZArith Bool String Ascii List.
From Stdlib Require Import Floats.SpecFloat.
From stdpp Require Import base option gmap strings.

Local Open Scope Z_scope.

(** ** The host language *)

Module Py.

(** Exceptions the module can meet: a comparison or [in] between values
    of unrelated types and a unary minus on a plain function raise
    [TypeError]; reading a missing attribute raises [AttributeError]. *)
Inductive exn : Type :=
| TypeError
| AttributeError.

(** An expression either evaluates to a value or raises. *)
Inductive result (A : Type) : Type :=
| Ok (a : A)
| Raise (e : exn).
Arguments Ok {A} a.
Arguments Raise {A} e.

#[global] Instance result_ret : MRet result := fun A a => Ok a.
#[global] Instance result_bind : MBind result := fun A B k m =>
  match m with
  | Ok a => k a
  | Raise e => Raise e
  end.
#[global] Instance result_fmap : FMap result := fun A B g m =>
  match m with
  | Ok a => Ok (g a)
  | Raise e => Raise e
  end.

(** Column values: Python ints (unbounded), floats (binary64), strings
    and [None]. These four kinds are the whole model: containers (lists,
    tuples, sets, dicts, bytes) and objects of other classes are not
    values here, and nothing below speaks about them. *)
Inductive value : Type :=
| VInt (n : Z)
| VFloat (d : spec_float)
| VStr (s : string)
| VNone.

(** [isinstance(x, numbers.Real)] *)
Definition is_real (x : value) : bool :=
  match x with
  | VInt _ | VFloat _ => true
  | VStr _ | VNone => false
  end.

(** Comparison of an int with a float is exact in Python: the float
    [(-1)^s * m * 2^e] is compared with [n] over the integers. *)
Definition cmp_int_float (n : Z) (d : spec_float) : option comparison :=
  match d with
  | S754_nan => None
  | S754_infinity s => Some (if s then Gt else Lt)
  | S754_zero _ => Some (n ?= 0)
  | S754_finite s m e =>
      let v := if s then Z.neg m else Z.pos m in
      Some (if 0 <=? e then n ?= v * 2 ^ e else n * 2 ^ (- e) ?= v)
  end.

(** The three-way comparison behind [<], [<=], [>], [>=]: [Raise TypeError]
    when the operands are not ordered with each other, [Ok None] when a NaN
    is involved (every ordering test is then false). *)
Definition py_cmp (x y : value) : result (option comparison) :=
  match x, y with
  | VInt a, VInt b => Ok (Some (a ?= b))
  | VFloat a, VFloat b => Ok (SFcompare a b)
  | VInt a, VFloat b => Ok (cmp_int_float a b)
  | VFloat a, VInt b => Ok (CompOpp <$> cmp_int_float b a)
  | VStr a, VStr b => Ok (Some (String.compare a b))
  | _, _ => Raise TypeError
  end.

Definition py_lt (x y : value) : result bool :=
  c ← py_cmp x y;
  Ok match c with Some Lt => true | _ => false end.

Definition py_le (x y : value) : result bool :=
  c ← py_cmp x y;
  Ok match c with Some Lt | Some Eq => true | _ => false end.

Definition py_gt (x y : value) : result bool :=
  c ← py_cmp x y;
  Ok match c with Some Gt => true | _ => false end.

Definition py_ge (x y : value) : result bool :=
  c ← py_cmp x y;
  Ok match c with Some Gt | Some Eq => true | _ => false end.

(** [x == y] never raises: values of unrelated types are unequal. *)
Definition py_eq (x y : value) : bool :=
  match x, y with
  | VInt a, VInt b => a =? b
  | VFloat a, VFloat b => SFeqb a b
  | VInt a, VFloat b =>
      match cmp_int_float a b with Some Eq => true | _ => false end
  | VFloat a, VInt b =>
      match cmp_int_float b a with Some Eq => true | _ => false end
  | VStr a, VStr b => String.eqb a b
  | VNone, VNone => true
  | _, _ => false
  end.

(** [sub in s] on strings: [sub] starts at some position of [s]. *)
Fixpoint str_contains (sub s : string) : bool :=
  if String.prefix sub s then true
  else match s with
       | EmptyString => false
       | String _ s' => str_contains sub s'
       end.

(** [a in b] on the four kinds of value: a string in a string is the
    substring test; an int, a float or [None] on the right is not iterable,
    and a string on the right accepts only a string on the left, so every
    other pair raises [TypeError]. (Containers, for which [in] is defined
    too, are not values of this model.) *)
Definition py_in (a b : value) : result bool :=
  match a, b with
  | VStr sub, VStr s => Ok (str_contains sub s)
  | _, _ => Raise TypeError
  end.

(** [a and b], [a or b], [not a] on boolean operands. The right operand
    is only looked at when the left one does not decide the result, so an
    exception it would raise is then lost. *)
Definition py_and (a b : result bool) : result bool :=
  v ← a; if v : bool then b else Ok false.

Definition py_or (a b : result bool) : result bool :=
  v ← a; if v : bool then Ok true else b.

Definition py_not (a : result bool) : result bool :=
  v ← a; Ok (negb v).

(** Both operands can be ordered with each other. *)
Definition orderable (x y : value) : bool :=
  match py_cmp x y with
  | Ok _ => true
  | Raise _ => false
  end.

End Py.

(** ** numpy on binary64 *)

Module Np.
Import Py.

Definition prec : Z := 53.
Definition emax : Z := 1024.

(** The float of a small integer literal; [1.0] and [0.0] below. *)
Definition float_of_Z (n : Z) : spec_float := binary_normalize prec emax n 0 false.
Arguments float_of_Z : simpl never.

(** A Python int handed to a ufunc becomes a 64-bit integer array element
    and is then cast to binary64 (round to nearest, ties to even); an int
    that fits neither int64 nor uint64 becomes an object array, for which
    [nextafter] has no loop. *)
Definition float64_of_int (n : Z) : result spec_float :=
  if (- 2 ^ 63 <=? n) && (n <? 2 ^ 64) then Ok (float_of_Z n)
  else Raise TypeError.

(** C99 [nextafter(x, t)]: NaN if either is NaN, [t] if they compare
    equal, otherwise the neighbour of [x] on the side of [t]. *)
Definition nextafter (x t : spec_float) : spec_float :=
  match SFcompare x t with
  | None => S754_nan
  | Some Eq => t
  | Some Lt => SFsucc prec emax x
  | Some Gt => SFpred prec emax x
  end.

(** [np.nextafter(x, t)] for a column value [x] and an int literal [t]. *)
Definition np_nextafter (x : value) (t : Z) : result spec_float :=
  match x with
  | VInt n => d ← float64_of_int n; Ok (nextafter d (float_of_Z t))
  | VFloat d => Ok (nextafter d (float_of_Z t))
  | VStr _ | VNone => Raise TypeError
  end.

(** [d == y] for a [np.float64] [d]. A Python int on the right is cast
    to binary64 first when it fits a 64-bit integer; everything else
    compares as a Python float does. *)
Definition np_eq (d : spec_float) (y : value) : bool :=
  match y with
  | VInt n =>
      match float64_of_int n with
      | Ok d' => SFeqb d d'
      | Raise _ => py_eq (VFloat d) y
      end
  | _ => py_eq (VFloat d) y
  end.

(** [y] is [x] or one of the two binary64 values next to [x]. *)
Definition within_one_ulp (x y : spec_float) : bool :=
  SFeqb x y || SFeqb (SFsucc prec emax x) y || SFeqb (SFpred prec emax x) y.

End Np.

(** ** predicates.py *)

Module Predicates.
Import Py Np.

(** *** Combination *)

(** [class _combinable]: the wrapper holds the wrapped function in the
    attribute [f]. ([functools.update_wrapper] only copies the name and
    the documentation of [f], which no operation here reads.) *)
Record _combinable : Type := __init__ { f : value -> result bool }.

(** What can stand on the right of [&], [|], [^] or under unary minus:
    a wrapper, or a plain one-argument function. *)
Inductive pyobj : Type :=
| Wrapped (c : _combinable)
| Plain (g : value -> result bool).

(** [other.f]: a plain function has no attribute [f]. *)
Definition getattr_f (other : pyobj) : result (value -> result bool) :=
  match other with
  | Wrapped c => Ok (f c)
  | Plain _ => Raise AttributeError
  end.

Definition __call__ (self : _combinable) (x : value) : result bool :=
  f self x.

Definition __and__ (self : _combinable) (other : pyobj) : _combinable :=
  __init__ (fun x => py_and (f self x) (g ← getattr_f other; g x)).

Definition __or__ (self : _combinable) (other : pyobj) : _combinable :=
  __init__ (fun x => py_or (f self x) (g ← getattr_f other; g x)).

Definition __neg__ (self : _combinable) : _combinable :=
  __init__ (fun x => py_not (f self x)).

(** [-o]: only wrappers define unary minus. *)
Definition neg (o : pyobj) : result _combinable :=
  match o with
  | Wrapped c => Ok (__neg__ c)
  | Plain _ => Raise TypeError
  end.

(** [(self & -other) | (-self & other)], operands built left to right. *)
Definition __xor__ (self : _combinable) (other : pyobj) : result _combinable :=
  not_other ← neg other;
  let left := __and__ self (Wrapped not_other) in
  let not_self := __neg__ self in
  let right := __and__ not_self other in
  Ok (__or__ left (Wrapped right)).

(** *** Negation *)

(** A factory takes its operands positionally. *)
Definition factory : Type := list value -> result _combinable.

(** [_not(f)] is the function that calls [f] on its arguments and
    negates the wrapper [f] returns. *)
Definition _not (fac : factory) : factory :=
  fun args => c ← fac args; neg (Wrapped c).

Definition _equal_or_float_equal (x y : value) : result bool :=
  if is_real x then
    if py_eq x y then Ok true
    else
      up ← np_nextafter x 1;
      if np_eq up y then Ok true
      else
        down ← np_nextafter x 0;
        Ok (np_eq down y)
  else Ok (py_eq x y).

(** *** The class [are] *)

Module are.

Definition equal_to (y : value) : _combinable :=
  __init__ (fun x => _equal_or_float_equal x y).

Definition above (y : value) : _combinable :=
  __init__ (fun x => py_gt x y).

Definition below (y : value) : _combinable :=
  __init__ (fun x => py_lt x y).

Definition above_or_equal_to (y : value) : _combinable :=
  __init__ (fun x => py_or (py_ge x y) (_equal_or_float_equal x y)).

Definition below_or_equal_to (y : value) : _combinable :=
  __init__ (fun x => py_or (py_le x y) (_equal_or_float_equal x y)).

Definition strictly_between (y z : value) : _combinable :=
  __init__ (fun x => py_and (py_lt y x) (py_lt x z)).

Definition between (y z : value) : _combinable :=
  __init__ (fun x =>
    py_or (py_and (py_le y x) (py_lt x z)) (_equal_or_float_equal x y)).

Definition between_or_equal_to (y z : value) : _combinable :=
  __init__ (fun x =>
    py_or (py_or (py_and (py_le y x) (py_le x z)) (_equal_or_float_equal x y))
          (_equal_or_float_equal x z)).

Definition containing (substring : value) : _combinable :=
  __init__ (fun x => py_in substring x).

Definition contained_in (superstring : value) : _combinable :=
  __init__ (fun x => py_in x superstring).

End are.

(** The predicate names of a class: names bound to factories. Only the
    names the module itself binds are kept here; what every Python class
    has besides ([__doc__], [__name__], [__module__], [mro], the attributes
    of [object], ...) is not a factory and is not modelled. *)
Abbreviation namespace := (gmap string factory).

(** A static method of one operand, called with positional arguments. *)
Definition static1 (g : value -> _combinable) : factory :=
  fun args =>
    match args with
    | [y] => Ok (g y)
    | _ => Raise TypeError
    end.

(** A static method of two operands. *)
Definition static2 (g : value -> value -> _combinable) : factory :=
  fun args =>
    match args with
    | [y; z] => Ok (g y z)
    | _ => Raise TypeError
    end.

(** The ten static methods the class statement binds. *)
Definition are_body : namespace :=
  <["contained_in" := static1 are.contained_in]>
  (<["containing" := static1 are.containing]>
  (<["between_or_equal_to" := static2 are.between_or_equal_to]>
  (<["between" := static2 are.between]>
  (<["strictly_between" := static2 are.strictly_between]>
  (<["below_or_equal_to" := static1 are.below_or_equal_to]>
  (<["above_or_equal_to" := static1 are.above_or_equal_to]>
  (<["below" := static1 are.below]>
  (<["above" := static1 are.above]>
  (<["equal_to" := static1 are.equal_to]> ∅))))))))).

(** [cls.name] and [cls.name = v]. The lookup is that of Python for the
    names bound in the namespace; for a name that is not a predicate name
    it answers [AttributeError], which Python does only when the name is
    not one of the attributes every class has. *)
Definition getattr (cls : namespace) (name : string) : result factory :=
  match cls !! name with
  | Some v => Ok v
  | None => Raise AttributeError
  end.

Definition setattr (name : string) (v : factory) (cls : namespace) : namespace :=
  <[name := v]> cls.

(** [are.new = _not(are.old)] and [are.new = are.old] as steps on the
    class. *)
Definition assign_not (new old : string) (cls : namespace) : result namespace :=
  fac ← getattr cls old; Ok (setattr new (_not fac) cls).

Definition assign_alias (new old : string) (cls : namespace) : result namespace :=
  fac ← getattr cls old; Ok (setattr new fac cls).

(** The ten assignments at the end of the module, in source order. *)
Definition are_class : result namespace :=
  cls ← assign_not "not_equal_to" "equal_to" are_body;
  cls ← assign_alias "not_above" "below_or_equal_to" cls;
  cls ← assign_alias "not_below" "above_or_equal_to" cls;
  cls ← assign_alias "not_below_or_equal_to" "above" cls;
  cls ← assign_alias "not_above_or_equal_to" "below" cls;
  cls ← assign_not "not_strictly_between" "strictly_between" cls;
  cls ← assign_not "not_between" "between" cls;
  cls ← assign_not "not_between_or_equal_to" "between_or_equal_to" cls;
  cls ← assign_not "not_containing" "containing" cls;
  assign_not "not_contained_in" "contained_in" cls.

(** [are.name( *args )] once the module is imported. *)
Definition are_ (name : string) (args : list value) : result _combinable :=
  cls ← are_class; fac ← getattr cls name; fac args.

(** [are.name( *args )(x)] *)
Definition are_call (name : string) (args : list value) (x : value) : result bool :=
  p ← are_ name args; __call__ p x.

(** Modelled from the spec: the row filter of the table, which is not part
    of this module. It calls the predicate once per cell value of the
    column, in order, and keeps the values for which the result is true;
    an exception of the predicate ends the filtering. *)
Fixpoint where_ (column : list value) (p : _combinable) : result (list value) :=
  match column with
  | [] => Ok []
  | x :: rest =>
      keep ← __call__ p x;
      kept ← where_ rest p;
      Ok (if keep : bool then x :: kept else kept)
  end.

End Predicates.

Import Py Np Predicates.

(** ** Vocabulary of the statements *)

(** The class after the module is imported: the ten static methods and
    the ten negated names. *)
Definition are_final : namespace :=
  <["not_contained_in" := _not (static1 are.contained_in)]>
  (<["not_containing" := _not (static1 are.containing)]>
  (<["not_between_or_equal_to" := _not (static2 are.between_or_equal_to)]>
  (<["not_between" := _not (static2 are.between)]>
  (<["not_strictly_between" := _not (static2 are.strictly_between)]>
  (<["not_above_or_equal_to" := static1 are.below]>
  (<["not_below_or_equal_to" := static1 are.above]>
  (<["not_below" := static1 are.above_or_equal_to]>
  (<["not_above" := static1 are.below_or_equal_to]>
  (<["not_equal_to" := _not (static1 are.equal_to)]> are_body))))))))).

(** The columns of the running example. *)
Definition sizes : list value := [VStr "S"; VStr "M"; VStr "L"; VStr "XL"].

Definition waists : list value := [VInt 30; VInt 34; VInt 38; VInt 42].

(** A predicate selects exactly the values [vals] from a column. *)
Definition selects (p : result _combinable) (column vals : list value) : Prop :=
  exists sel, (c ← p; where_ column c) = Ok sel /\ forall v, In v sel <-> In v vals.

(** An expression that raises nothing but [TypeError]. *)
Definition raises_only_TypeError {A} (r : result A) : Prop :=
  forall e, r = Raise e -> e = TypeError.

(** Wrappers obtained from the registry or from combining such wrappers. *)
Inductive registry_built : _combinable -> Prop :=
| built_registry name args c :
    are_ name args = Ok c -> registry_built c
| built_and p q :
    registry_built p -> registry_built q ->
    registry_built (__and__ p (Wrapped q))
| built_or p q :
    registry_built p -> registry_built q ->
    registry_built (__or__ p (Wrapped q))
| built_neg p :
    registry_built p -> registry_built (__neg__ p)
| built_xor p q r :
    registry_built p -> registry_built q ->
    __xor__ p (Wrapped q) = Ok r -> registry_built r.

(** Every wrapper a factory returns raises nothing but [TypeError]. *)
Definition factory_safe (fac : factory) : Prop :=
  forall args c, fac args = Ok c -> forall x, raises_only_TypeError (f c x).

(** The names of the class, by number of operands, and the names the
    module derives with [_not] next to the names they negate. *)
Definition unary_names : list string :=
  ["equal_to"; "above"; "below"; "above_or_equal_to"; "below_or_equal_to";
   "containing"; "contained_in";
   "not_equal_to"; "not_above"; "not_below"; "not_below_or_equal_to";
   "not_above_or_equal_to"; "not_containing"; "not_contained_in"]%string.

Definition binary_names : list string :=
  ["strictly_between"; "between"; "between_or_equal_to";
   "not_strictly_between"; "not_between"; "not_between_or_equal_to"]%string.

Definition negated_by_not : list (string * string) :=
  [("not_equal_to", "equal_to"); ("not_strictly_between", "strictly_between");
   ("not_between", "between");
   ("not_between_or_equal_to", "between_or_equal_to");
   ("not_containing", "containing");
   ("not_contained_in", "contained_in")]%string.

(** [t.where(column, are.name( *args ))]: the values of the column the
    table keeps. *)
Definition are_where (column : list value) (name : string)
    (args : list value) : result (list value) :=
  p ← are_ name args; where_ column p.

(** ** Facts about the host language *)

Section PyFacts.

Lemma bind_Ok {A B} (k : A -> result B) (a : A) : (Ok a ≫= k) = k a.
Proof. reflexivity. Qed.

Lemma bind_Raise {A B} (k : A -> result B) (e : exn) : (Raise e ≫= k) = Raise e.
Proof. reflexivity. Qed.

Lemma py_and_true (a b : result bool) :
  py_and a b = Ok true <-> a = Ok true /\ b = Ok true.
Proof.
  unfold py_and. destruct a as [[|]|e]; simpl; split.
  all: try (intros [? ?]); try intros ?; try split; congruence.
Qed.

Lemma py_or_true (a b : result bool) :
  py_or a b = Ok true <-> a = Ok true \/ (a = Ok false /\ b = Ok true).
Proof.
  unfold py_or. destruct a as [[|]|e]; simpl; split; intros H.
  all: try (destruct H as [H | [H H']]); auto; try congruence.
Qed.

(** Equal strings compare as [Eq]. *)
Lemma string_compare_refl (s : string) : String.compare s s = Eq.
Proof.
  induction s as [|c s IH]; simpl; [reflexivity |].
  unfold Ascii.compare. rewrite N.compare_refl. exact IH.
Qed.

(** Values that are equal are ordered as [Eq], unless they are objects
    without an ordering. *)
Lemma py_eq_cmp (x y : value) :
  py_eq x y = true ->
  py_cmp x y = Ok (Some Eq) \/ (x = VNone /\ y = VNone).
Proof.
  destruct x as [a|a|a|], y as [b|b|b|]; simpl; try discriminate; auto.
  - intros H. apply Z.eqb_eq in H. subst b. rewrite Z.compare_refl. auto.
  - destruct (cmp_int_float a b) as [[| |]|]; try discriminate; auto.
  - destruct (cmp_int_float b a) as [[| |]|]; try discriminate; auto.
  - unfold SFeqb. destruct (SFcompare a b) as [[| |]|]; try discriminate; auto.
  - intros H. apply String.eqb_eq in H. subst b.
    rewrite string_compare_refl. auto.
Qed.

Lemma py_eq_orderable_lt (x y : value) :
  py_eq x y = true -> orderable x y = true -> py_lt x y = Ok false.
Proof.
  intros He Ho. destruct (py_eq_cmp _ _ He) as [Hc | [-> ->]].
  - unfold py_lt. now rewrite Hc.
  - discriminate Ho.
Qed.

Lemma SFcompare_antisym (a b : spec_float) :
  SFcompare b a = CompOpp <$> SFcompare a b.
Proof.
  destruct a as [s|s| |s m e], b as [s'|s'| |s' m' e']; simpl; auto;
    try (destruct s; reflexivity); try (destruct s'; reflexivity);
    try (destruct s, s'; reflexivity).
  destruct s, s'; simpl; auto;
    change (Pos.compare_cont Eq m' m) with (Pos.compare m' m);
    change (Pos.compare_cont Eq m m') with (Pos.compare m m');
    rewrite (Z.compare_antisym e e'), (Pos.compare_antisym m m');
    destruct (e ?= e'); simpl; auto;
    destruct (Pos.compare m m'); reflexivity.
Qed.

(** Swapping the operands of an ordering test mirrors its outcome. *)
Lemma py_cmp_antisym (x y : value) :
  py_cmp y x = fmap (M:=result) (fmap (M:=option) CompOpp) (py_cmp x y).
Proof.
  destruct x as [a|a|a|], y as [b|b|b|]; simpl; auto.
  - now rewrite (Z.compare_antisym a b).
  - destruct (cmp_int_float b a) as [[| |]|]; reflexivity.
  - now rewrite SFcompare_antisym.
  - now rewrite (String.compare_antisym b a).
Qed.

Lemma py_eq_orderable_gt (x y : value) :
  py_eq x y = true -> orderable y x = true -> py_lt y x = Ok false.
Proof.
  intros He Ho. destruct (py_eq_cmp _ _ He) as [Hc | [-> ->]].
  - unfold py_lt. rewrite py_cmp_antisym, Hc. reflexivity.
  - discriminate Ho.
Qed.

Lemma orderable_sym (x y : value) : orderable y x = orderable x y.
Proof.
  unfold orderable. rewrite py_cmp_antisym. now destruct (py_cmp x y).
Qed.

End PyFacts.

(** ** Membership predicates *)

Section Membership.

Lemma prefix_nil (s : string) : String.prefix "" s = true.
Proof. destruct s; reflexivity. Qed.

Lemma append_cons (c : ascii) (s t : string) :
  String.append (String c s) t = String c (String.append s t).
Proof. reflexivity. Qed.

Lemma prefix_append (sub s : string) :
  String.prefix sub s = true <-> exists post, s = String.append sub post.
Proof.
  revert s. induction sub as [|a sub IH]; intros s.
  - rewrite prefix_nil. split; [intros _; now exists s | reflexivity].
  - destruct s as [|b s]; simpl.
    + split; [discriminate | intros [post H]; discriminate].
    + destruct (ascii_dec a b) as [->|Hne].
      * rewrite IH. split; intros [post H]; exists post;
          rewrite append_cons in *; congruence.
      * split; [discriminate | intros [post H]; rewrite append_cons in H; congruence].
Qed.

Lemma str_contains_eq (sub s : string) :
  str_contains sub s =
  if String.prefix sub s then true
  else match s with
       | EmptyString => false
       | String _ s' => str_contains sub s'
       end.
Proof. destruct s; reflexivity. Qed.

(** [str_contains] is the substring test: [sub] occurs in [s] exactly
    when [s] splits as [pre ++ sub ++ post]. *)
Lemma str_contains_spec (sub s : string) :
  str_contains sub s = true <->
  exists pre post, s = String.append pre (String.append sub post).
Proof.
  induction s as [|c s IH]; rewrite str_contains_eq.
  - destruct (String.prefix sub "") eqn:E.
    + apply prefix_append in E as [post E].
      split; [intros _; now exists EmptyString, post | reflexivity].
    + split; [discriminate |].
      intros ([|c pre] & post & H); [| discriminate].
      assert (String.prefix sub "" = true) by (apply prefix_append; eauto).
      congruence.
  - destruct (String.prefix sub (String c s)) eqn:E.
    + apply prefix_append in E as [post E].
      split; [intros _; now exists EmptyString, post | reflexivity].
    + rewrite IH. split.
      * intros (pre & post & ->). now exists (String c pre), post.
      * intros ([|c' pre] & post & H).
        -- assert (String.prefix sub (String c s) = true)
             by (apply prefix_append; eauto).
           congruence.
        -- exists pre, post. rewrite append_cons in H. congruence.
Qed.

Lemma str_contains_nil (s : string) : str_contains "" s = true.
Proof. destruct s; reflexivity. Qed.

End Membership.

Section MembershipClaims.

(** C10. With the empty string as operand the membership predicates hold
    for every string: [containing('')(x)] is true for every string [x],
    and [contained_in(s)('')] is true for every string [s]. *)
Theorem empty_string_membership :
  (forall x : string, __call__ (are.containing (VStr "")) (VStr x) = Ok true) /\
  (forall s : string, __call__ (are.contained_in (VStr s)) (VStr "") = Ok true).
Proof.
  split; intros s; unfold __call__; simpl; now rewrite str_contains_nil.
Qed.

(** C3, as the claim states it, fails: on the sizes column
    [contained_in('MXL')] does not select exactly M and XL, and
    [not_contained_in('MXL')] does not select exactly S and L, because
    ["L"] is a substring of ["MXL"]. *)
Lemma contained_in_MXL_keeps_L :
  ~ selects (Ok (are.contained_in (VStr "MXL"))) sizes [VStr "M"; VStr "XL"] /\
  ~ selects (are_ "not_contained_in" [VStr "MXL"]) sizes [VStr "S"; VStr "L"].
Proof.
  split; intros (sel & Hsel & Hin); vm_compute in Hsel;
    injection Hsel as <-.
  - assert (H : In (VStr "L") [VStr "M"; VStr "XL"])
      by (apply Hin; simpl; auto).
    simpl in H. intuition congruence.
  - assert (H : In (VStr "L") [VStr "S"])
      by (apply Hin; simpl; auto).
    simpl in H. intuition congruence.
Qed.

(** C3, amended. On the sizes column S, M, L, XL: [containing('L')]
    selects exactly L and XL; [contained_in('MXL')] selects exactly M, L
    and XL; [not_contained_in('MXL')] selects exactly S. *)
Theorem sizes_membership_selection :
  selects (Ok (are.containing (VStr "L"))) sizes [VStr "L"; VStr "XL"] /\
  selects (Ok (are.contained_in (VStr "MXL"))) sizes
          [VStr "M"; VStr "L"; VStr "XL"] /\
  selects (are_ "not_contained_in" [VStr "MXL"]) sizes [VStr "S"].
Proof.
  repeat split; eexists; (split; [vm_compute; reflexivity | tauto]).
Qed.

End MembershipClaims.

(** ** The combination algebra *)

Section Combination.

(** C4. For wrappers [p], [q] and every value [x]: [(p & q)(x)] is
    [p(x) and q(x)], [(p | q)(x)] is [p(x) or q(x)], [(-p)(x)] is
    [not p(x)], and [p ^ q] is the wrapper [(p & -q) | (-p & q)], whose
    value at [x] is [p(x) != q(x)]. *)
Theorem combination_laws (p q : _combinable) (x : value) :
  __call__ (__and__ p (Wrapped q)) x = py_and (__call__ p x) (__call__ q x) /\
  __call__ (__or__ p (Wrapped q)) x = py_or (__call__ p x) (__call__ q x) /\
  __call__ (__neg__ p) x = py_not (__call__ p x) /\
  __xor__ p (Wrapped q) =
    Ok (__or__ (__and__ p (Wrapped (__neg__ q)))
               (Wrapped (__and__ (__neg__ p) (Wrapped q)))) /\
  (r ← __xor__ p (Wrapped q); __call__ r x) =
    (a ← __call__ p x; b ← __call__ q x; Ok (negb (Bool.eqb a b))).
Proof.
  repeat split.
  unfold __xor__, __call__; simpl.
  destruct (f p x) as [[|]|e]; simpl; auto;
    destruct (f q x) as [[|]|e']; reflexivity.
Qed.

(** On results that are booleans, the host operators are the boolean
    connectives. *)
Lemma combination_truth_table (p q : _combinable) (x : value) (a b : bool) :
  __call__ p x = Ok a -> __call__ q x = Ok b ->
  __call__ (__and__ p (Wrapped q)) x = Ok (a && b) /\
  __call__ (__or__ p (Wrapped q)) x = Ok (a || b) /\
  __call__ (__neg__ p) x = Ok (negb a).
Proof.
  unfold __call__; simpl. intros -> ->. now destruct a, b.
Qed.

(** C6. Conjunction and disjunction short-circuit: when [p(x)] is false,
    [(p & q)(x)] is false whatever [q] is, so also when calling [q] would
    raise; when [p(x)] is true, [(p | q)(x)] is true whatever [q] is. *)
Theorem short_circuit (p : _combinable) (q : pyobj) (x : value) :
  (__call__ p x = Ok false -> __call__ (__and__ p q) x = Ok false) /\
  (__call__ p x = Ok true -> __call__ (__or__ p q) x = Ok true).
Proof.
  unfold __call__; simpl. split; intros ->; reflexivity.
Qed.

(** An instance of C6 in which the right operand raises: comparing the
    int 3 with a string is a [TypeError], yet neither combination
    raises. *)
Lemma short_circuit_witness :
  __call__ (are.above (VStr "a")) (VInt 3) = Raise TypeError /\
  __call__ (__and__ (are.above (VInt 5)) (Wrapped (are.above (VStr "a"))))
           (VInt 3) = Ok false /\
  __call__ (__or__ (are.below (VInt 5)) (Wrapped (are.above (VStr "a"))))
           (VInt 3) = Ok true.
Proof.
  split; [reflexivity |]. split.
  - apply (short_circuit (are.above (VInt 5)) (Wrapped (are.above (VStr "a")))
                         (VInt 3)).
    reflexivity.
  - apply (short_circuit (are.below (VInt 5)) (Wrapped (are.above (VStr "a")))
                         (VInt 3)).
    reflexivity.
Defined.

End Combination.

(** ** The negated names *)

Section NegatedNames.

Lemma are_class_final : are_class = Ok are_final.
Proof. reflexivity. Qed.

(** C5. After import, [not_above] is bound to the very factory bound to
    [below_or_equal_to], and likewise [not_below] to [above_or_equal_to],
    [not_below_or_equal_to] to [above] and [not_above_or_equal_to] to
    [below]; so the predicate built under a negated name and the one
    built under its target return the same result for every [y] and
    [x]. *)
Theorem negated_names_alias :
  exists cls, are_class = Ok cls /\
  (cls !! "not_above" = Some (static1 are.below_or_equal_to) /\
   cls !! "below_or_equal_to" = Some (static1 are.below_or_equal_to)) /\
  (cls !! "not_below" = Some (static1 are.above_or_equal_to) /\
   cls !! "above_or_equal_to" = Some (static1 are.above_or_equal_to)) /\
  (cls !! "not_below_or_equal_to" = Some (static1 are.above) /\
   cls !! "above" = Some (static1 are.above)) /\
  (cls !! "not_above_or_equal_to" = Some (static1 are.below) /\
   cls !! "below" = Some (static1 are.below)) /\
  forall y x : value,
    are_call "not_above" [y] x = are_call "below_or_equal_to" [y] x /\
    are_call "not_below" [y] x = are_call "above_or_equal_to" [y] x /\
    are_call "not_below_or_equal_to" [y] x = are_call "above" [y] x /\
    are_call "not_above_or_equal_to" [y] x = are_call "below" [y] x.
Proof.
  exists are_final. split; [exact are_class_final |].
  repeat split.
Qed.

End NegatedNames.

(** ** Which exceptions a predicate can raise *)

Section Exceptions.

Create HintDb exn discriminated.

Lemma rte_Ok {A} (a : A) : raises_only_TypeError (Ok a).
Proof. intros e H. discriminate H. Qed.

Lemma rte_TypeError {A} : raises_only_TypeError (@Raise A TypeError).
Proof. intros e H. now injection H as <-. Qed.

Lemma rte_bind {A B} (m : result A) (k : A -> result B) :
  raises_only_TypeError m ->
  (forall a, raises_only_TypeError (k a)) ->
  raises_only_TypeError (m ≫= k).
Proof.
  intros Hm Hk. destruct m as [a|e]; simpl; [apply Hk |].
  intros e' H. injection H as <-. now apply Hm.
Qed.

Lemma rte_if {A} (b : bool) (r1 r2 : result A) :
  raises_only_TypeError r1 -> raises_only_TypeError r2 ->
  raises_only_TypeError (if b then r1 else r2).
Proof. now destruct b. Qed.

Hint Resolve rte_Ok rte_TypeError rte_bind rte_if : exn.

Lemma rte_py_cmp (x y : value) : raises_only_TypeError (py_cmp x y).
Proof. destruct x, y; simpl; auto with exn. Qed.

Hint Resolve rte_py_cmp : exn.

Lemma rte_py_lt (x y : value) : raises_only_TypeError (py_lt x y).
Proof. unfold py_lt. auto with exn. Qed.

Lemma rte_py_le (x y : value) : raises_only_TypeError (py_le x y).
Proof. unfold py_le. auto with exn. Qed.

Lemma rte_py_gt (x y : value) : raises_only_TypeError (py_gt x y).
Proof. unfold py_gt. auto with exn. Qed.

Lemma rte_py_ge (x y : value) : raises_only_TypeError (py_ge x y).
Proof. unfold py_ge. auto with exn. Qed.

Lemma rte_py_in (a b : value) : raises_only_TypeError (py_in a b).
Proof. destruct a, b; simpl; auto with exn. Qed.

Lemma rte_py_and (a b : result bool) :
  raises_only_TypeError a -> raises_only_TypeError b ->
  raises_only_TypeError (py_and a b).
Proof. intros Ha Hb. unfold py_and. auto with exn. Qed.

Lemma rte_py_or (a b : result bool) :
  raises_only_TypeError a -> raises_only_TypeError b ->
  raises_only_TypeError (py_or a b).
Proof. intros Ha Hb. unfold py_or. auto with exn. Qed.

Lemma rte_py_not (a : result bool) :
  raises_only_TypeError a -> raises_only_TypeError (py_not a).
Proof. intros Ha. unfold py_not. auto with exn. Qed.

Lemma rte_float64_of_int (n : Z) : raises_only_TypeError (float64_of_int n).
Proof. unfold float64_of_int. auto with exn. Qed.

Hint Resolve rte_float64_of_int : exn.

Lemma rte_np_nextafter (x : value) (t : Z) :
  raises_only_TypeError (np_nextafter x t).
Proof. destruct x; simpl; auto with exn. Qed.

Hint Resolve rte_np_nextafter : exn.

Lemma rte_equal_or_float_equal (x y : value) :
  raises_only_TypeError (_equal_or_float_equal x y).
Proof. unfold _equal_or_float_equal. auto 10 with exn. Qed.

Hint Resolve rte_py_lt rte_py_le rte_py_gt rte_py_ge rte_py_in rte_py_and
  rte_py_or rte_py_not rte_equal_or_float_equal : exn.

Lemma static1_safe (g : value -> _combinable) :
  (forall y x, raises_only_TypeError (f (g y) x)) -> factory_safe (static1 g).
Proof.
  intros Hg [|y [|? ?]] c H; simpl in H; try discriminate.
  injection H as <-. apply Hg.
Qed.

Lemma static2_safe (g : value -> value -> _combinable) :
  (forall y z x, raises_only_TypeError (f (g y z) x)) ->
  factory_safe (static2 g).
Proof.
  intros Hg [|y [|z [|? ?]]] c H; simpl in H; try discriminate.
  injection H as <-. apply Hg.
Qed.

Lemma _not_safe (fac : factory) : factory_safe fac -> factory_safe (_not fac).
Proof.
  intros Hfac args c H x. unfold _not in H.
  destruct (fac args) as [c0|e] eqn:E; simpl in H; [| discriminate].
  injection H as <-. simpl. apply rte_py_not. now apply (Hfac args).
Qed.

(** Every name of the class is bound to a safe factory. *)
Lemma are_final_safe : map_Forall (fun _ fac => factory_safe fac) are_final.
Proof.
  unfold are_final, are_body.
  repeat (apply map_Forall_insert_2; [| ]); try apply map_Forall_empty;
    repeat apply _not_safe;
    first [apply static1_safe | apply static2_safe]; intros; simpl;
    auto 10 with exn.
Qed.

Lemma registry_safe (name : string) (args : list value) (c : _combinable) :
  are_ name args = Ok c -> forall x, raises_only_TypeError (f c x).
Proof.
  unfold are_. rewrite are_class_final. simpl. unfold getattr.
  destruct (are_final !! name) as [fac|] eqn:E; simpl; [| discriminate].
  intros H. exact (are_final_safe name fac E args c H).
Qed.

Lemma registry_built_safe (p : _combinable) :
  registry_built p -> forall x, raises_only_TypeError (__call__ p x).
Proof.
  unfold __call__.
  induction 1 as [name args c H | p q _ IHp _ IHq | p q _ IHp _ IHq
                 | p _ IHp | p q r _ IHp _ IHq H]; intros x.
  - now apply (registry_safe name args).
  - simpl. auto with exn.
  - simpl. auto with exn.
  - simpl. auto with exn.
  - injection H as <-. simpl. auto 10 with exn.
Qed.

End Exceptions.

Section PlainOperand.

(** C9, as the claim states it, fails: [are.above(5) & g] with a plain
    function [g] is false at 3 and [are.above(5) | g] is true at 7, both
    without raising, and [are.above(5) ^ g] produces no predicate at all:
    negating [g] is a [TypeError] when the combination is built. *)
Lemma plain_operand_not_always_failing :
  let g := fun _ : value => Ok true in
  __call__ (__and__ (are.above (VInt 5)) (Plain g)) (VInt 3) = Ok false /\
  __call__ (__or__ (are.above (VInt 5)) (Plain g)) (VInt 7) = Ok true /\
  __xor__ (are.above (VInt 5)) (Plain g) = Raise TypeError.
Proof. repeat split. Qed.

(** C9, amended. With a plain function [g] on the right, [(p & g)(x)]
    raises [AttributeError] exactly when [p(x)] is true and is false when
    [p(x)] is false; [(p | g)(x)] raises [AttributeError] exactly when
    [p(x)] is false and is true when [p(x)] is true; [p ^ g] raises
    [TypeError] when it is built. A wrapper that comes from the registry
    or from combining such wrappers never raises [AttributeError] when
    called. *)
Theorem plain_operand_failure :
  (forall p g x,
     __call__ (__and__ p (Plain g)) x =
       (a ← __call__ p x; if a : bool then Raise AttributeError else Ok false)) /\
  (forall p g x,
     __call__ (__or__ p (Plain g)) x =
       (a ← __call__ p x; if a : bool then Ok true else Raise AttributeError)) /\
  (forall p g, __xor__ p (Plain g) = Raise TypeError) /\
  (forall p, registry_built p ->
     forall x, __call__ p x <> Raise AttributeError).
Proof.
  repeat split.
  intros p Hp x H. apply (registry_built_safe p Hp x) in H. discriminate H.
Qed.

(** An instance: the xor of two registry predicates, called on a value
    they cannot be compared with, raises, but not [AttributeError]. *)
Lemma plain_operand_failure_witness :
  exists r,
    __xor__ (are.above (VInt 5)) (Wrapped (are.containing (VStr "L"))) = Ok r /\
    registry_built r /\
    __call__ r (VStr "XL") = Raise TypeError /\
    __call__ r (VStr "XL") <> Raise AttributeError.
Proof.
  eexists. split; [reflexivity |].
  assert (Hr : registry_built
    (__or__ (__and__ (are.above (VInt 5))
                     (Wrapped (__neg__ (are.containing (VStr "L")))))
            (Wrapped (__and__ (__neg__ (are.above (VInt 5)))
                              (Wrapped (are.containing (VStr "L"))))))).
  { apply (built_xor (are.above (VInt 5)) (are.containing (VStr "L"))).
    - apply (built_registry "above" [VInt 5]). reflexivity.
    - apply (built_registry "containing" [VStr "L"]). reflexivity.
    - reflexivity. }
  split; [exact Hr |]. split; [reflexivity |].
  exact (proj2 (proj2 (proj2 plain_operand_failure)) _ Hr (VStr "XL")).
Defined.

End PlainOperand.

(** ** Near-equality *)

Section NearEquality.

Lemma float_of_Z_0 : float_of_Z 0 = S754_zero false.
Proof. reflexivity. Qed.

Lemma float_of_Z_1 : float_of_Z 1 = S754_finite false 4503599627370496 (-52).
Proof. reflexivity. Qed.

(** Floats that compare equal are the same float, or are both zeros. *)
Lemma SFcompare_Eq_inv (x y : spec_float) :
  SFcompare x y = Some Eq ->
  x = y \/ exists s s', x = S754_zero s /\ y = S754_zero s'.
Proof.
  destruct x as [s|s| |s m e], y as [s'|s'| |s' m' e']; simpl;
    try discriminate; try (destruct s; discriminate);
    try (destruct s'; discriminate).
  - intros _. right. eauto.
  - destruct s, s'; try discriminate; auto.
  - change (Pos.compare_cont Eq m m') with (Pos.compare m m').
    destruct s, s'; try discriminate;
      destruct (e ?= e') eqn:Ee; try discriminate;
      destruct (m ?= m')%positive eqn:Em; try discriminate;
      apply Z.compare_eq in Ee; apply Pos.compare_eq in Em; subst; auto.
Qed.

Lemma SFeqb_compare_Eq (x t y : spec_float) :
  SFcompare x t = Some Eq -> SFeqb t y = SFeqb x y.
Proof.
  intros H. destruct (SFcompare_Eq_inv _ _ H) as [-> | (s & s' & -> & ->)];
    [reflexivity |].
  now destruct y.
Qed.

(** Whatever the target, [nextafter] returns [x] itself (up to [==]), a
    neighbour of [x], or NaN. *)
Lemma nextafter_within_one_ulp (x t y : spec_float) :
  SFeqb (nextafter x t) y = true -> within_one_ulp x y = true.
Proof.
  unfold nextafter, within_one_ulp.
  destruct (SFcompare x t) as [[| |]|] eqn:E; intros H.
  - rewrite <- (SFeqb_compare_Eq x t y E), H. reflexivity.
  - rewrite H. now rewrite orb_true_r.
  - rewrite H. now rewrite orb_true_r.
  - discriminate H.
Qed.

(** On floats, near-equality implies being at most one step apart. *)
Lemma near_equal_within_one_ulp (x y : spec_float) :
  _equal_or_float_equal (VFloat x) (VFloat y) = Ok true ->
  within_one_ulp x y = true.
Proof.
  unfold _equal_or_float_equal; simpl.
  destruct (SFeqb x y) eqn:E0.
  - intros _. unfold within_one_ulp. now rewrite E0.
  - destruct (SFeqb (nextafter x (float_of_Z 1)) y) eqn:E1.
    + intros _. now apply (nextafter_within_one_ulp x (float_of_Z 1)).
    + intros H. injection H as H.
      now apply (nextafter_within_one_ulp x (float_of_Z 0)).
Qed.

(** For a value that is not a real number, near-equality is [==]. *)
Lemma near_equal_not_real (x y : value) :
  is_real x = false -> _equal_or_float_equal x y = Ok (py_eq x y).
Proof. unfold _equal_or_float_equal. now intros ->. Qed.

(** Equal values are near-equal. *)
Lemma near_equal_eq (x y : value) :
  py_eq x y = true -> _equal_or_float_equal x y = Ok true.
Proof.
  intros H. unfold _equal_or_float_equal. rewrite H. now destruct (is_real x).
Qed.

(** A float above 1.0 is also above 0.0. *)
Lemma above_one_above_zero (x : spec_float) :
  SFcompare x (float_of_Z 1) = Some Gt -> SFcompare x (float_of_Z 0) = Some Gt.
Proof.
  rewrite float_of_Z_0, float_of_Z_1.
  destruct x as [s|s| |s m e]; unfold SFcompare; try discriminate.
  - now destruct s.
  - destruct s; [discriminate | reflexivity].
Qed.

(** Which neighbours the code looks at. Strictly between 0.0 and 1.0 it
    tests both neighbours of [x]. *)
Lemma near_equal_unit_interval (x y : spec_float) :
  SFcompare x (float_of_Z 0) = Some Gt ->
  SFcompare x (float_of_Z 1) = Some Lt ->
  _equal_or_float_equal (VFloat x) (VFloat y) = Ok (within_one_ulp x y).
Proof.
  intros H0 H1. unfold _equal_or_float_equal, within_one_ulp; simpl.
  unfold nextafter. rewrite H0, H1.
  destruct (SFeqb x y); simpl; [reflexivity |].
  now destruct (SFeqb (SFsucc prec emax x) y).
Qed.

(** Above 1.0 both calls of [nextafter] step down: the neighbour above
    [x] is never tested. *)
Lemma near_equal_above_one (x y : spec_float) :
  SFcompare x (float_of_Z 1) = Some Gt ->
  _equal_or_float_equal (VFloat x) (VFloat y) =
  Ok (SFeqb x y || SFeqb (SFpred prec emax x) y).
Proof.
  intros H1. pose proof (above_one_above_zero x H1) as H0.
  unfold _equal_or_float_equal; simpl. unfold nextafter. rewrite H0, H1.
  destruct (SFeqb x y); simpl; [reflexivity |].
  now destruct (SFeqb (SFpred prec emax x) y).
Qed.

(** Below 0.0 both calls step up: the neighbour below [x] is never
    tested. *)
Lemma near_equal_below_zero (x y : spec_float) :
  SFcompare x (float_of_Z 0) = Some Lt ->
  _equal_or_float_equal (VFloat x) (VFloat y) =
  Ok (SFeqb x y || SFeqb (SFsucc prec emax x) y).
Proof.
  intros H0.
  assert (H1 : SFcompare x (float_of_Z 1) = Some Lt).
  { revert H0. rewrite float_of_Z_0, float_of_Z_1.
    destruct x as [s|s| |s m e]; unfold SFcompare; try discriminate.
    - now destruct s.
    - destruct s; [reflexivity | discriminate]. }
  unfold _equal_or_float_equal; simpl. unfold nextafter. rewrite H0, H1.
  destruct (SFeqb x y); simpl; [reflexivity |].
  now destruct (SFeqb (SFsucc prec emax x) y).
Qed.

End NearEquality.

(** ** Comparison predicates *)

Section Comparisons.

(** [above_or_equal_to] and [below_or_equal_to] are the ordering test
    or-ed with near-equality. *)
Lemma above_or_equal_to_true (y x : value) :
  __call__ (are.above_or_equal_to y) x = Ok true <->
  py_ge x y = Ok true \/
  (py_ge x y = Ok false /\ _equal_or_float_equal x y = Ok true).
Proof. apply py_or_true. Qed.

Lemma below_or_equal_to_true (y x : value) :
  __call__ (are.below_or_equal_to y) x = Ok true <->
  py_le x y = Ok true \/
  (py_le x y = Ok false /\ _equal_or_float_equal x y = Ok true).
Proof. apply py_or_true. Qed.

(** Between 0.0 and 1.0 the tolerance works in both directions. *)
Example equal_to_half_neighbours :
  __call__ (are.equal_to (VFloat (SFsucc prec emax (S754_finite false 4503599627370496 (-53)))))
           (VFloat (S754_finite false 4503599627370496 (-53))) = Ok true /\
  __call__ (are.equal_to (VFloat (SFpred prec emax (S754_finite false 4503599627370496 (-53)))))
           (VFloat (S754_finite false 4503599627370496 (-53))) = Ok true.
Proof. split; vm_compute; reflexivity. Qed.

(** C1 at a failing input. [y = 2.0000000000000004] is the float
    immediately above [x = 2.0], yet [equal_to(y)(x)] is false: both
    [nextafter(x, 1)] and [nextafter(x, 0)] are the float below 2.0. The
    other way round, [equal_to(2.0)(y)] is true. *)
Theorem equal_to_misses_upper_neighbour :
  SFsucc prec emax (float_of_Z 2) = S754_finite false 4503599627370497 (-51) /\
  np_nextafter (VFloat (float_of_Z 2)) 1 = Ok (SFpred prec emax (float_of_Z 2)) /\
  np_nextafter (VFloat (float_of_Z 2)) 0 = Ok (SFpred prec emax (float_of_Z 2)) /\
  __call__ (are.equal_to (VFloat (SFsucc prec emax (float_of_Z 2))))
           (VFloat (float_of_Z 2)) = Ok false /\
  __call__ (are.equal_to (VFloat (float_of_Z 2)))
           (VFloat (SFsucc prec emax (float_of_Z 2))) = Ok true.
Proof. repeat split; vm_compute; reflexivity. Qed.

(** C2 at a failing input. [x = 37.99999999999999] lies one step below
    [y = 38.0], yet [above_or_equal_to(y)(x)] is false. *)
Theorem above_or_equal_to_misses_lower_neighbour :
  SFsucc prec emax (SFpred prec emax (float_of_Z 38)) = float_of_Z 38 /\
  py_ge (VFloat (SFpred prec emax (float_of_Z 38))) (VFloat (float_of_Z 38)) =
    Ok false /\
  _equal_or_float_equal (VFloat (SFpred prec emax (float_of_Z 38)))
                        (VFloat (float_of_Z 38)) = Ok false /\
  __call__ (are.above_or_equal_to (VFloat (float_of_Z 38)))
           (VFloat (SFpred prec emax (float_of_Z 38))) = Ok false.
Proof. repeat split; vm_compute; reflexivity. Qed.

(** C7 at a failing input. [x = 37.99999999999999] is the float
    immediately below the lower bound [y = 38.0], hence within one step of
    it; yet [between(38.0, 42.0)(x)] is false: [y <= x] fails, and both
    [nextafter(x, 1)] and [nextafter(x, 0)] are the float below [x], away
    from [y]. At the bounds themselves the predicate is as expected: true
    at [x == y], false at [x == z]. *)
Theorem between_misses_lower_neighbour :
  SFsucc prec emax (SFpred prec emax (float_of_Z 38)) = float_of_Z 38 /\
  within_one_ulp (SFpred prec emax (float_of_Z 38)) (float_of_Z 38) = true /\
  within_one_ulp (float_of_Z 42) (float_of_Z 38) = false /\
  np_nextafter (VFloat (SFpred prec emax (float_of_Z 38))) 1 =
    Ok (SFpred prec emax (SFpred prec emax (float_of_Z 38))) /\
  np_nextafter (VFloat (SFpred prec emax (float_of_Z 38))) 0 =
    Ok (SFpred prec emax (SFpred prec emax (float_of_Z 38))) /\
  py_le (VFloat (float_of_Z 38)) (VFloat (SFpred prec emax (float_of_Z 38))) =
    Ok false /\
  _equal_or_float_equal (VFloat (SFpred prec emax (float_of_Z 38)))
                        (VFloat (float_of_Z 38)) = Ok false /\
  __call__ (are.between (VFloat (float_of_Z 38)) (VFloat (float_of_Z 42)))
           (VFloat (SFpred prec emax (float_of_Z 38))) = Ok false /\
  __call__ (are.between (VFloat (float_of_Z 38)) (VFloat (float_of_Z 42)))
           (VFloat (float_of_Z 38)) = Ok true /\
  __call__ (are.between (VFloat (float_of_Z 38)) (VFloat (float_of_Z 42)))
           (VFloat (float_of_Z 42)) = Ok false.
Proof. repeat split; vm_compute; reflexivity. Qed.

(** The shape of [between] in terms of the module's own
    [_equal_or_float_equal] (which is not the one-step distance once
    [x] leaves the unit interval): when [x] can be ordered with both bounds,
    [between(y, z)(x)] is true iff [y <= x < z] or
    [_equal_or_float_equal(x, y)]; it is true at [x == y], and false at
    [x == z] when [_equal_or_float_equal(x, y)] is false. *)
Lemma between_lower_bound_forgiven (y z x : value) :
  orderable y x = true -> orderable x z = true ->
  (__call__ (are.between y z) x = Ok true <->
     (py_le y x = Ok true /\ py_lt x z = Ok true) \/
     _equal_or_float_equal x y = Ok true) /\
  (py_eq x y = true -> __call__ (are.between y z) x = Ok true) /\
  (py_eq x z = true -> _equal_or_float_equal x y = Ok false ->
     __call__ (are.between y z) x = Ok false).
Proof.
  intros Hyx Hxz.
  assert (Hle : exists b, py_le y x = Ok b).
  { unfold orderable in Hyx. unfold py_le.
    destruct (py_cmp y x); [eauto | discriminate]. }
  assert (Hlt : exists b, py_lt x z = Ok b).
  { unfold orderable in Hxz. unfold py_lt.
    destruct (py_cmp x z); [eauto | discriminate]. }
  destruct Hle as [b Hle], Hlt as [b' Hlt].
  unfold __call__; simpl. rewrite Hle, Hlt.
  split; [| split].
  - rewrite py_or_true, py_and_true. split.
    + intros [H | [_ H]]; auto.
    + intros [H | H]; [left; exact H |].
      destruct b, b'; simpl; auto.
  - intros He. rewrite (near_equal_eq _ _ He).
    destruct b, b'; reflexivity.
  - intros He Hn. rewrite (py_eq_orderable_lt _ _ He Hxz) in Hlt.
    injection Hlt as <-. rewrite Hn. now destruct b.
Qed.

Lemma between_lower_bound_forgiven_witness :
  __call__ (are.between (VInt 30) (VInt 38)) (VInt 30) = Ok true /\
  __call__ (are.between (VInt 30) (VInt 38)) (VInt 38) = Ok false.
Proof.
  split.
  - exact (proj1 (proj2 (between_lower_bound_forgiven
                           (VInt 30) (VInt 38) (VInt 30) eq_refl eq_refl))
                 eq_refl).
  - exact (proj2 (proj2 (between_lower_bound_forgiven
                           (VInt 30) (VInt 38) (VInt 38) eq_refl eq_refl))
                 eq_refl eq_refl).
Defined.

(** On floats the upper bound is exact: [between(y, z)(z)] is false when
    [z] is more than one step away from [y]. *)
Lemma between_upper_bound_exact (y z : spec_float) :
  within_one_ulp z y = false ->
  __call__ (are.between (VFloat y) (VFloat z)) (VFloat z) = Ok false.
Proof.
  intros Hw.
  assert (Hn : _equal_or_float_equal (VFloat z) (VFloat y) = Ok false).
  { pose proof (near_equal_within_one_ulp z y) as H.
    destruct (_equal_or_float_equal (VFloat z) (VFloat y)) as [[|]|e] eqn:E;
      auto.
    - rewrite H in Hw; [discriminate | reflexivity].
    - unfold _equal_or_float_equal in E; simpl in E.
      destruct (SFeqb z y); [discriminate |].
      destruct (SFeqb _ y); discriminate. }
  unfold __call__; simpl. rewrite Hn.
  unfold py_le, py_lt; simpl.
  assert (Hzz : match SFcompare z z with Some Lt => true | _ => false end = false).
  { pose proof (SFcompare_antisym z z) as H.
    destruct (SFcompare z z) as [[| |]|]; simpl in H; congruence. }
  rewrite Hzz. now destruct (SFcompare y z) as [[| |]|].
Qed.

(** C8. [strictly_between(y, z)(x)] is true iff [y < x] and [x < z];
    when [x] can be ordered with both bounds it is false at [x == y] and
    at [x == z]. *)
Theorem strictly_between_exclusive (y z x : value) :
  orderable y x = true -> orderable x z = true ->
  (__call__ (are.strictly_between y z) x = Ok true <->
     py_lt y x = Ok true /\ py_lt x z = Ok true) /\
  (py_eq x y = true -> __call__ (are.strictly_between y z) x = Ok false) /\
  (py_eq x z = true -> __call__ (are.strictly_between y z) x = Ok false).
Proof.
  intros Hyx Hxz. unfold __call__; simpl. split; [| split].
  - apply py_and_true.
  - intros He. now rewrite (py_eq_orderable_gt _ _ He Hyx).
  - intros He. rewrite (py_eq_orderable_lt _ _ He Hxz).
    unfold orderable in Hyx. unfold py_lt.
    destruct (py_cmp y x) as [[[| |]|]|]; try discriminate; reflexivity.
Qed.

Lemma strictly_between_exclusive_witness :
  __call__ (are.strictly_between (VInt 30) (VInt 38)) (VInt 30) = Ok false /\
  __call__ (are.strictly_between (VInt 30) (VInt 38)) (VInt 38) = Ok false /\
  __call__ (are.strictly_between (VInt 30) (VInt 38)) (VInt 34) = Ok true.
Proof.
  split; [| split].
  - exact (proj1 (proj2 (strictly_between_exclusive
                           (VInt 30) (VInt 38) (VInt 30) eq_refl eq_refl))
                 eq_refl).
  - exact (proj2 (proj2 (strictly_between_exclusive
                           (VInt 30) (VInt 38) (VInt 38) eq_refl eq_refl))
                 eq_refl).
  - exact (proj2 (proj1 (strictly_between_exclusive
                           (VInt 30) (VInt 38) (VInt 34) eq_refl eq_refl))
                 (conj eq_refl eq_refl)).
Defined.

(** No forgiveness: the float just below 0.5 is near-equal to 0.5 but
    not strictly between 0.5 and 1.0. *)
Example strictly_between_no_forgiveness :
  _equal_or_float_equal
    (VFloat (SFpred prec emax (S754_finite false 4503599627370496 (-53))))
    (VFloat (S754_finite false 4503599627370496 (-53))) = Ok true /\
  __call__ (are.strictly_between (VFloat (S754_finite false 4503599627370496 (-53)))
                                 (VFloat (float_of_Z 1)))
    (VFloat (SFpred prec emax (S754_finite false 4503599627370496 (-53)))) =
    Ok false.
Proof. split; vm_compute; reflexivity. Qed.

(** The rows the module's docstring shows for the waists column. *)
Example docstring_waists :
  where_ waists (are.above (VInt 38)) = Ok [VInt 42] /\
  where_ waists (are.above_or_equal_to (VInt 38)) = Ok [VInt 38; VInt 42] /\
  where_ waists (are.below_or_equal_to (VInt 38)) =
    Ok [VInt 30; VInt 34; VInt 38] /\
  where_ waists (are.strictly_between (VInt 30) (VInt 38)) = Ok [VInt 34] /\
  where_ waists (are.between (VInt 30) (VInt 38)) = Ok [VInt 30; VInt 34] /\
  where_ waists (are.between_or_equal_to (VInt 30) (VInt 38)) =
    Ok [VInt 30; VInt 34; VInt 38] /\
  (p ← are_ "not_between" [VInt 30; VInt 38]; where_ waists p) =
    Ok [VInt 38; VInt 42] /\
  (p ← are_ "not_above" [VInt 38]; where_ waists p) =
    Ok [VInt 30; VInt 34; VInt 38].
Proof. repeat split; vm_compute; reflexivity. Qed.

End Comparisons.

(** ** Laws of the combination operators *)

Section CombinationLaws.

Implicit Types (p q r : _combinable) (x : value).

(** Negating twice gives back the predicate: same value, same exception. *)
Theorem double_negation p x :
  __call__ (__neg__ (__neg__ p)) x = __call__ p x.
Proof.
  unfold __call__; simpl. destruct (f p x) as [[|]|e]; reflexivity.
Qed.

(** De Morgan: [-(p & q)] behaves as [-p | -q] and [-(p | q)] as
    [-p & -q], also in which operand gets evaluated and which exception
    comes out. *)
Theorem de_morgan p q x :
  __call__ (__neg__ (__and__ p (Wrapped q))) x =
    __call__ (__or__ (__neg__ p) (Wrapped (__neg__ q))) x /\
  __call__ (__neg__ (__or__ p (Wrapped q))) x =
    __call__ (__and__ (__neg__ p) (Wrapped (__neg__ q))) x.
Proof.
  unfold __call__; simpl.
  destruct (f p x) as [[|]|e]; simpl; auto;
    destruct (f q x) as [[|]|e']; auto.
Qed.


(** [&] and [|] commute at a value where neither operand raises. *)
Theorem and_or_commute p q x a b :
  __call__ p x = Ok a -> __call__ q x = Ok b ->
  __call__ (__and__ p (Wrapped q)) x = __call__ (__and__ q (Wrapped p)) x /\
  __call__ (__or__ p (Wrapped q)) x = __call__ (__or__ q (Wrapped p)) x.
Proof.
  unfold __call__; simpl. intros -> ->. now destruct a, b.
Qed.

Lemma and_or_commute_witness :
  __call__ (__and__ (are.above (VInt 5)) (Wrapped (are.below (VInt 9)))) (VInt 7) =
  __call__ (__and__ (are.below (VInt 9)) (Wrapped (are.above (VInt 5)))) (VInt 7).
Proof.
  exact (proj1 (and_or_commute (are.above (VInt 5)) (are.below (VInt 9))
                               (VInt 7) true true eq_refl eq_refl)).
Defined.

(** Without that condition they do not commute: the order decides whether
    an exception of one operand is reached. *)
Theorem and_not_commutative_with_exceptions :
  exists p q x,
    __call__ (__and__ p (Wrapped q)) x = Ok false /\
    __call__ (__and__ q (Wrapped p)) x = Raise TypeError.
Proof.
  exists (are.above (VInt 5)), (are.above (VStr "a")), (VInt 3).
  split; reflexivity.
Qed.

(** Unlike [&] and [|], [^] never short-circuits: [(p ^ q)(x)] raises
    exactly when [p(x)] or [q(x)] raises, and with the exception of [p]
    when both do. *)
Theorem xor_evaluates_both p q x :
  exists c, __xor__ p (Wrapped q) = Ok c /\
  (forall e, __call__ c x = Raise e <->
     __call__ p x = Raise e \/
     ((exists a, __call__ p x = Ok a) /\ __call__ q x = Raise e)).
Proof.
  eexists. split; [reflexivity |].
  unfold __call__; simpl. intros e0.
  destruct (f p x) as [[|]|e]; simpl;
    destruct (f q x) as [[|]|e']; simpl; split;
    try (intros H; discriminate H);
    try (intros [H | [[a H] H']]; try discriminate; congruence);
    try (intros H; injection H as <-); eauto.
Qed.

(** [p ^ p] is false wherever [p] does not raise, and [p ^ -p] is true. *)
Theorem xor_self p x :
  (r ← __xor__ p (Wrapped p); __call__ r x) = (a ← __call__ p x; Ok false) /\
  (r ← __xor__ p (Wrapped (__neg__ p)); __call__ r x) =
    (a ← __call__ p x; Ok true).
Proof.
  unfold __xor__, __call__; simpl.
  destruct (f p x) as [[|]|e]; split; reflexivity.
Qed.

End CombinationLaws.

(** ** The registry *)

Section Registry.

(** The six names defined with [_not] are exact negations: whatever the
    operands, the negated predicate returns the opposite boolean, and it
    raises exactly what the positive one raises (a wrong number of
    operands included). *)
Theorem not_names_negate (neg_name pos_name : string) (args : list value)
    (x : value) :
  In (neg_name, pos_name) negated_by_not ->
  are_call neg_name args x = py_not (are_call pos_name args x).
Proof.
  intros H. unfold are_call, are_. rewrite are_class_final.
  simpl in H.
  repeat (destruct H as [H | H]; [injection H as <- <- |]); try contradiction;
    cbn -[float_of_Z];
    repeat (destruct args as [|? args]; try reflexivity).
Qed.

Lemma not_names_negate_witness :
  are_call "not_between" [VInt 30; VInt 38] (VInt 34) = Ok false /\
  are_call "not_between" [VInt 30] (VInt 34) = Raise TypeError.
Proof.
  split.
  - exact (not_names_negate "not_between" "between" [VInt 30; VInt 38] (VInt 34)
             (or_intror (or_intror (or_introl eq_refl)))).
  - exact (not_names_negate "not_between" "between" [VInt 30] (VInt 34)
             (or_intror (or_intror (or_introl eq_refl)))).
Defined.

(** Once the module is imported each of the twenty predicate names is
    bound to a factory, and the ten assignments rebind none of the static
    methods: a name the class statement binds is still bound to the same
    factory. *)
Theorem registry_names (name : string) :
  (In name (unary_names ++ binary_names) ->
     exists fac, (cls ← are_class; getattr cls name) = Ok fac) /\
  (forall fac, are_body !! name = Some fac ->
     (cls ← are_class; getattr cls name) = Ok fac).
Proof.
  rewrite are_class_final. split.
  - intros H. simpl in H.
    repeat (destruct H as [<- | H]; [eexists; reflexivity |]).
    contradiction.
  - intros fac H. unfold are_body in H.
    repeat (apply lookup_insert_Some in H;
            destruct H as [[<- <-] | [_ H]]; [reflexivity |]).
    rewrite lookup_empty in H. discriminate H.
Qed.

Lemma registry_names_witness :
  (exists fac, (cls ← are_class; getattr cls "not_below") = Ok fac) /\
  (cls ← are_class; getattr cls "between") = Ok (static2 are.between).
Proof.
  split.
  - apply (proj1 (registry_names "not_below")). simpl. tauto.
  - apply (proj2 (registry_names "between")). reflexivity.
Defined.

(** A name of one operand builds a predicate from exactly one operand and
    raises [TypeError] for any other number; a name of two operands wants
    exactly two. *)
Theorem registry_arity (name : string) (args : list value) :
  (In name unary_names ->
     match args with
     | [_] => exists c, are_ name args = Ok c
     | _ => are_ name args = Raise TypeError
     end) /\
  (In name binary_names ->
     match args with
     | [_; _] => exists c, are_ name args = Ok c
     | _ => are_ name args = Raise TypeError
     end).
Proof.
  unfold are_. rewrite are_class_final.
  split; intros H; simpl in H;
    repeat (destruct H as [<- | H];
            [destruct args as [|y [|z [|? ?]]]; try reflexivity;
             eexists; reflexivity |]);
    contradiction.
Qed.

Lemma registry_arity_witness :
  are_ "above" [] = Raise TypeError /\
  are_ "not_between" [VInt 1; VInt 2; VInt 3] = Raise TypeError /\
  exists c, are_ "between" [VInt 1; VInt 2] = Ok c.
Proof.
  split; [| split].
  - apply (proj1 (registry_arity "above" [])). simpl. tauto.
  - apply (proj2 (registry_arity "not_between" [VInt 1; VInt 2; VInt 3])).
    simpl. tauto.
  - apply (proj2 (registry_arity "between" [VInt 1; VInt 2])). simpl. tauto.
Defined.

End Registry.

(** ** Further properties of the comparison predicates *)

Section ComparisonLaws.

Lemma py_cmp_Eq_py_eq (x y : value) :
  py_cmp x y = Ok (Some Eq) -> py_eq x y = true.
Proof.
  destruct x as [a|a|a|], y as [b|b|b|]; simpl; try discriminate; intros H;
    injection H as H.
  - now apply Z.eqb_eq, Z.compare_eq.
  - now rewrite H.
  - destruct (cmp_int_float b a) as [[| |]|]; simpl in H; congruence.
  - unfold SFeqb. now rewrite H.
  - apply String.compare_eq_iff in H. subst b. apply String.eqb_refl.
Qed.

Lemma SFcompare_refl (d : spec_float) :
  d <> S754_nan -> SFcompare d d = Some Eq.
Proof.
  destruct d as [s|s| |s m e]; unfold SFcompare; intros H;
    try reflexivity; try congruence.
  - now destruct s.
  - rewrite Z.compare_refl.
    change (Pos.compare_cont Eq m m) with (Pos.compare m m).
    rewrite Pos.compare_refl. now destruct s.
Qed.

Lemma py_eq_refl (x : value) : x <> VFloat S754_nan -> py_eq x x = true.
Proof.
  destruct x as [a|a|a|]; simpl; intros H.
  - apply Z.eqb_refl.
  - unfold SFeqb. rewrite SFcompare_refl; [reflexivity | congruence].
  - apply String.eqb_refl.
  - reflexivity.
Qed.

(** [above] and [below] mirror each other, and no value is both above and
    below the same operand. *)
Theorem above_below_mirror (y x : value) :
  __call__ (are.above y) x = __call__ (are.below x) y /\
  (__call__ (are.above y) x = Ok true -> __call__ (are.below y) x = Ok false) /\
  (__call__ (are.below y) x = Ok true -> __call__ (are.above y) x = Ok false).
Proof.
  unfold __call__; simpl. unfold py_gt, py_lt. rewrite (py_cmp_antisym x y).
  destruct (py_cmp x y) as [[[| |]|]|e]; simpl; repeat split;
    try reflexivity; discriminate.
Qed.

Lemma above_below_mirror_witness :
  __call__ (are.below (VInt 38)) (VInt 42) = Ok false.
Proof.
  exact (proj1 (proj2 (above_below_mirror (VInt 38) (VInt 42))) eq_refl).
Defined.

(** The strict predicates imply the forgiving ones: what
    [strictly_between] selects, [between] selects, and what [between]
    selects, [between_or_equal_to] selects; likewise [above] implies
    [above_or_equal_to] and [below] implies [below_or_equal_to]. *)
Theorem strict_implies_inclusive (y z x : value) :
  (__call__ (are.strictly_between y z) x = Ok true ->
   __call__ (are.between y z) x = Ok true) /\
  (__call__ (are.between y z) x = Ok true ->
   __call__ (are.between_or_equal_to y z) x = Ok true) /\
  (__call__ (are.above y) x = Ok true ->
   __call__ (are.above_or_equal_to y) x = Ok true) /\
  (__call__ (are.below y) x = Ok true ->
   __call__ (are.below_or_equal_to y) x = Ok true).
Proof.
  unfold __call__; simpl. unfold py_lt, py_le, py_gt, py_ge.
  repeat split.
  - destruct (py_cmp y x) as [[[| |]|]|e]; simpl; try discriminate.
    destruct (py_cmp x z) as [[[| |]|]|e]; simpl; try discriminate.
    reflexivity.
  - destruct (py_cmp y x) as [[[| |]|]|e]; simpl; try discriminate;
      destruct (py_cmp x z) as [[[| |]|]|e]; simpl; try discriminate;
      try reflexivity;
      destruct (_equal_or_float_equal x y) as [[|]|e']; simpl;
      try discriminate; reflexivity.
  - destruct (py_cmp x y) as [[[| |]|]|e]; simpl; try discriminate.
    reflexivity.
  - destruct (py_cmp x y) as [[[| |]|]|e]; simpl; try discriminate.
    reflexivity.
Qed.

Lemma strict_implies_inclusive_witness :
  __call__ (are.between (VInt 30) (VInt 38)) (VInt 34) = Ok true.
Proof.
  exact (proj1 (strict_implies_inclusive (VInt 30) (VInt 38) (VInt 34)) eq_refl).
Defined.

(** [between_or_equal_to] includes both bounds: when [x] can be ordered
    with both, it is true at [x == y] and never false at [x == z]. *)
Theorem between_or_equal_to_bounds (y z x : value) :
  orderable y x = true -> orderable x z = true ->
  (py_eq x y = true -> __call__ (are.between_or_equal_to y z) x = Ok true) /\
  (py_eq x z = true -> __call__ (are.between_or_equal_to y z) x <> Ok false) /\
  (py_eq x z = true -> py_le y x = Ok true ->
     __call__ (are.between_or_equal_to y z) x = Ok true).
Proof.
  intros Hyx Hxz. unfold __call__; simpl.
  assert (Hle : exists b, py_le y x = Ok b).
  { unfold orderable in Hyx. unfold py_le.
    destruct (py_cmp y x); [eauto | discriminate]. }
  assert (Hle' : exists b, py_le x z = Ok b).
  { unfold orderable in Hxz. unfold py_le.
    destruct (py_cmp x z); [eauto | discriminate]. }
  destruct Hle as [b Hle], Hle' as [b' Hle'].
  split; [| split].
  - intros He. rewrite Hle, Hle', (near_equal_eq _ _ He).
    destruct b, b'; reflexivity.
  - intros He. rewrite Hle, Hle', (near_equal_eq _ _ He).
    destruct b, b'; simpl; try discriminate;
      destruct (_equal_or_float_equal x y) as [[|]|e]; discriminate.
  - intros He Hb. rewrite Hb, Hle'.
    destruct (py_eq_cmp _ _ He) as [Hc | [-> ->]]; [| discriminate Hxz].
    unfold py_le in Hle'. rewrite Hc in Hle'. injection Hle' as <-.
    reflexivity.
Qed.

Lemma between_or_equal_to_bounds_witness :
  __call__ (are.between_or_equal_to (VInt 30) (VInt 38)) (VInt 30) = Ok true /\
  __call__ (are.between_or_equal_to (VInt 30) (VInt 38)) (VInt 38) = Ok true.
Proof.
  pose proof (between_or_equal_to_bounds (VInt 30) (VInt 38) (VInt 30)
                eq_refl eq_refl) as H30.
  pose proof (between_or_equal_to_bounds (VInt 30) (VInt 38) (VInt 38)
                eq_refl eq_refl) as H38.
  split.
  - exact (proj1 H30 eq_refl).
  - exact (proj2 (proj2 H38) eq_refl eq_refl).
Defined.

(** [equal_to(x)(x)] is true for every value except NaN, for which it is
    false. *)
Theorem equal_to_reflexive (x : value) :
  (x <> VFloat S754_nan -> __call__ (are.equal_to x) x = Ok true) /\
  __call__ (are.equal_to (VFloat S754_nan)) (VFloat S754_nan) = Ok false.
Proof.
  split; [| reflexivity].
  intros H. unfold __call__; simpl. apply near_equal_eq. now apply py_eq_refl.
Qed.

Lemma equal_to_reflexive_witness :
  __call__ (are.equal_to (VStr "XL")) (VStr "XL") = Ok true.
Proof.
  apply (proj1 (equal_to_reflexive (VStr "XL"))). discriminate.
Defined.

(** NaN satisfies none of the comparison predicates: against real
    operands every one of them is false, the forgiving ones and the
    aliases [not_above], [not_below] included. *)
Theorem nan_satisfies_nothing (y z : value) :
  is_real y = true -> is_real z = true ->
  __call__ (are.equal_to y) (VFloat S754_nan) = Ok false /\
  __call__ (are.above y) (VFloat S754_nan) = Ok false /\
  __call__ (are.below y) (VFloat S754_nan) = Ok false /\
  __call__ (are.above_or_equal_to y) (VFloat S754_nan) = Ok false /\
  __call__ (are.below_or_equal_to y) (VFloat S754_nan) = Ok false /\
  __call__ (are.strictly_between y z) (VFloat S754_nan) = Ok false /\
  __call__ (are.between y z) (VFloat S754_nan) = Ok false /\
  __call__ (are.between_or_equal_to y z) (VFloat S754_nan) = Ok false /\
  are_call "not_above" [y] (VFloat S754_nan) = Ok false /\
  are_call "not_below" [y] (VFloat S754_nan) = Ok false.
Proof.
  assert (Hnear : forall v, is_real v = true ->
            _equal_or_float_equal (VFloat S754_nan) v = Ok false).
  { intros [n|d| |] Hv; try discriminate Hv.
    - unfold _equal_or_float_equal, np_eq; simpl.
      destruct (float64_of_int n); reflexivity.
    - reflexivity. }
  assert (Hcmp : forall v, is_real v = true ->
            py_cmp (VFloat S754_nan) v = Ok None).
  { intros [n|d| |] Hv; try discriminate Hv; reflexivity. }
  assert (Hcmp' : forall v, is_real v = true ->
            py_cmp v (VFloat S754_nan) = Ok None).
  { intros [n|d| |] Hv; try discriminate Hv; [reflexivity |].
    simpl. now destruct d. }
  intros Hy Hz.
  change (are_call "not_above" [y] (VFloat S754_nan))
    with (__call__ (are.below_or_equal_to y) (VFloat S754_nan)).
  change (are_call "not_below" [y] (VFloat S754_nan))
    with (__call__ (are.above_or_equal_to y) (VFloat S754_nan)).
  unfold __call__; cbn -[_equal_or_float_equal py_cmp float_of_Z].
  unfold py_lt, py_le, py_gt, py_ge.
  rewrite !(Hcmp y Hy), !(Hcmp z Hz), !(Hcmp' y Hy), !(Hnear y Hy),
    !(Hnear z Hz).
  repeat split.
Qed.

Lemma nan_satisfies_nothing_witness :
  __call__ (are.above_or_equal_to (VInt 38)) (VFloat S754_nan) = Ok false /\
  are_call "not_above" [VInt 38] (VFloat S754_nan) = Ok false.
Proof.
  pose proof (nan_satisfies_nothing (VInt 38) (VInt 38) eq_refl eq_refl) as H.
  split; [apply H | apply H].
Defined.

(** The aliases are not complements. Where [x] is greater than [y] and
    near-equal to it, [above(y)(x)] and [not_above(y)(x)] are both true;
    where it is smaller and near-equal, [below] and [not_below] are. *)
Theorem alias_overlaps_its_opposite (y x : value) :
  _equal_or_float_equal x y = Ok true ->
  (__call__ (are.above y) x = Ok true ->
     are_call "not_above" [y] x = Ok true) /\
  (__call__ (are.below y) x = Ok true ->
     are_call "not_below" [y] x = Ok true).
Proof.
  intros Hn.
  change (are_call "not_above" [y] x)
    with (__call__ (are.below_or_equal_to y) x).
  change (are_call "not_below" [y] x)
    with (__call__ (are.above_or_equal_to y) x).
  unfold __call__; cbn -[_equal_or_float_equal py_cmp float_of_Z].
  unfold py_lt, py_le, py_gt, py_ge. rewrite Hn.
  split; destruct (py_cmp x y) as [[[| |]|]|e]; simpl; try discriminate;
    reflexivity.
Qed.

Lemma alias_overlaps_its_opposite_witness :
  __call__ (are.above (VFloat (SFpred prec emax (S754_finite false 4503599627370496 (-53)))))
           (VFloat (S754_finite false 4503599627370496 (-53))) = Ok true /\
  are_call "not_above"
           [VFloat (SFpred prec emax (S754_finite false 4503599627370496 (-53)))]
           (VFloat (S754_finite false 4503599627370496 (-53))) = Ok true.
Proof.
  split; [vm_compute; reflexivity |].
  apply (proj1 (alias_overlaps_its_opposite
           (VFloat (SFpred prec emax (S754_finite false 4503599627370496 (-53))))
           (VFloat (S754_finite false 4503599627370496 (-53)))
           ltac:(vm_compute; reflexivity))).
  vm_compute; reflexivity.
Defined.

(** For operands that can be ordered, [above_or_equal_to] is exactly
    [above] or [equal_to], and [below_or_equal_to] is [below] or
    [equal_to]. *)
Theorem or_equal_to_decomposes (y x : value) :
  orderable x y = true ->
  (__call__ (are.above_or_equal_to y) x = Ok true <->
     __call__ (are.above y) x = Ok true \/
     __call__ (are.equal_to y) x = Ok true) /\
  (__call__ (are.below_or_equal_to y) x = Ok true <->
     __call__ (are.below y) x = Ok true \/
     __call__ (are.equal_to y) x = Ok true).
Proof.
  intros Ho. unfold __call__; simpl. unfold orderable in Ho.
  unfold py_lt, py_le, py_gt, py_ge.
  destruct (py_cmp x y) as [c|e] eqn:Hc; [| discriminate].
  assert (Heq : c = Some Eq -> _equal_or_float_equal x y = Ok true).
  { intros ->. apply near_equal_eq. now apply py_cmp_Eq_py_eq. }
  destruct c as [[| |]|]; simpl; try (specialize (Heq eq_refl));
    split; split; intros H; auto;
    try (destruct H as [H | H]; try discriminate; auto).
Qed.

Lemma or_equal_to_decomposes_witness :
  __call__ (are.above_or_equal_to (VInt 38)) (VInt 38) = Ok true.
Proof.
  apply (proj1 (or_equal_to_decomposes (VInt 38) (VInt 38) eq_refl)).
  right. reflexivity.
Defined.

(** An empty integer range selects no integer: with [z <= y + 1] nothing
    lies strictly between [y] and [z]. *)
Theorem strictly_between_empty_range (y z x : Z) :
  z <= y + 1 ->
  __call__ (are.strictly_between (VInt y) (VInt z)) (VInt x) = Ok false.
Proof.
  intros H. unfold __call__, are.strictly_between, py_and, py_lt; simpl.
  destruct (Z.compare_spec y x) as [E1|E1|E1]; simpl; try reflexivity.
  destruct (Z.compare_spec x z) as [E2|E2|E2]; simpl; try reflexivity.
  lia.
Qed.

Lemma strictly_between_empty_range_witness :
  __call__ (are.strictly_between (VInt 30) (VInt 31)) (VInt 30) = Ok false.
Proof.
  apply (strictly_between_empty_range 30 31 30). lia.
Defined.

End ComparisonLaws.

(** ** Further properties of the membership predicates *)

Section MembershipLaws.

Lemma append_nil_r (s : string) : String.append s "" = s.
Proof.
  induction s as [|c s IH]; [reflexivity |].
  rewrite append_cons. now rewrite IH.
Qed.

Lemma append_assoc (s t u : string) :
  String.append (String.append s t) u = String.append s (String.append t u).
Proof.
  induction s as [|c s IH]; [reflexivity |].
  rewrite !append_cons. now rewrite IH.
Qed.

(** On strings [containing] is reflexive and transitive, and
    [contained_in] is the same test with operand and value swapped. *)
Theorem containing_preorder (a b c : string) :
  __call__ (are.containing (VStr a)) (VStr a) = Ok true /\
  (__call__ (are.containing (VStr a)) (VStr b) = Ok true ->
   __call__ (are.containing (VStr b)) (VStr c) = Ok true ->
   __call__ (are.containing (VStr a)) (VStr c) = Ok true) /\
  __call__ (are.contained_in (VStr b)) (VStr a) =
    __call__ (are.containing (VStr a)) (VStr b).
Proof.
  unfold __call__; simpl. split; [| split; [| reflexivity]].
  - f_equal. apply str_contains_spec. exists EmptyString, EmptyString.
    simpl. now rewrite append_nil_r.
  - intros Hab Hbc. injection Hab as Hab. injection Hbc as Hbc. f_equal.
    apply str_contains_spec in Hab as (p1 & q1 & ->).
    apply str_contains_spec in Hbc as (p2 & q2 & ->).
    apply str_contains_spec.
    exists (String.append p2 p1), (String.append q1 q2).
    now rewrite !append_assoc.
Qed.

Lemma containing_preorder_witness :
  __call__ (are.containing (VStr "L")) (VStr "MXL") = Ok true.
Proof.
  exact (proj1 (proj2 (containing_preorder "L" "XL" "MXL")) eq_refl eq_refl).
Defined.

(** The membership predicates on ints, floats, strings and [None] (the
    values of this model; containers are not among them). On two strings
    they return the substring test. When the value tested is a number or
    [None], or when the operand is, they raise [TypeError]: a membership
    predicate cannot be used on a numeric column, nor with a numeric
    operand on a string column. They raise no other exception. *)
Theorem membership_type_error (a b : value) :
  (forall s t, a = VStr s -> b = VStr t ->
     __call__ (are.containing a) b = Ok (str_contains s t) /\
     __call__ (are.contained_in a) b = Ok (str_contains t s)) /\
  (is_real b = true \/ b = VNone ->
     __call__ (are.containing a) b = Raise TypeError /\
     __call__ (are.contained_in a) b = Raise TypeError) /\
  (is_real a = true \/ a = VNone ->
     __call__ (are.containing a) b = Raise TypeError /\
     __call__ (are.contained_in a) b = Raise TypeError) /\
  (forall e, __call__ (are.containing a) b = Raise e \/
             __call__ (are.contained_in a) b = Raise e -> e = TypeError).
Proof.
  unfold __call__; simpl. repeat split.
  - subst. reflexivity.
  - subst. reflexivity.
  - destruct H as [H | ->]; [| now destruct a].
    destruct b; try discriminate H; now destruct a.
  - destruct H as [H | ->]; [| now destruct a].
    destruct b; try discriminate H; now destruct a.
  - destruct H as [H | ->]; [| reflexivity].
    destruct a; try discriminate H; reflexivity.
  - destruct H as [H | ->]; [| now destruct b].
    destruct a; try discriminate H; now destruct b.
  - intros e [H | H]; destruct a, b; simpl in H; congruence.
Qed.

Lemma membership_type_error_witness :
  __call__ (are.containing (VStr "L")) (VInt 38) = Raise TypeError /\
  __call__ (are.contained_in (VInt 38)) (VStr "L") = Raise TypeError /\
  __call__ (are.containing (VStr "L")) (VStr "XL") = Ok true.
Proof.
  split; [| split].
  - exact (proj1 (proj1 (proj2 (membership_type_error (VStr "L") (VInt 38)))
                        (or_introl eq_refl))).
  - exact (proj2 (proj1 (proj2 (proj2 (membership_type_error (VInt 38) (VStr "L"))))
                        (or_introl eq_refl))).
  - exact (proj1 (proj1 (membership_type_error (VStr "L") (VStr "XL"))
                        "L" "XL" eq_refl eq_refl)).
Defined.

End MembershipLaws.

(** ** Witnesses and the module's own examples *)

Section Examples.

Lemma near_equal_unit_interval_witness :
  _equal_or_float_equal (VFloat (S754_finite false 4503599627370496 (-53)))
                        (VFloat (float_of_Z 1)) =
  Ok (within_one_ulp (S754_finite false 4503599627370496 (-53)) (float_of_Z 1)).
Proof.
  exact (near_equal_unit_interval (S754_finite false 4503599627370496 (-53))
           (float_of_Z 1) eq_refl eq_refl).
Defined.

Lemma near_equal_above_one_witness :
  _equal_or_float_equal (VFloat (float_of_Z 2)) (VFloat (float_of_Z 3)) =
  Ok (SFeqb (float_of_Z 2) (float_of_Z 3)
      || SFeqb (SFpred prec emax (float_of_Z 2)) (float_of_Z 3)).
Proof.
  exact (near_equal_above_one (float_of_Z 2) (float_of_Z 3) eq_refl).
Defined.

Lemma near_equal_below_zero_witness :
  _equal_or_float_equal (VFloat (float_of_Z (-2))) (VFloat (float_of_Z 3)) =
  Ok (SFeqb (float_of_Z (-2)) (float_of_Z 3)
      || SFeqb (SFsucc prec emax (float_of_Z (-2))) (float_of_Z 3)).
Proof.
  exact (near_equal_below_zero (float_of_Z (-2)) (float_of_Z 3) eq_refl).
Defined.

Lemma between_upper_bound_exact_witness :
  __call__ (are.between (VFloat (float_of_Z 30)) (VFloat (float_of_Z 38)))
           (VFloat (float_of_Z 38)) = Ok false.
Proof.
  apply (between_upper_bound_exact (float_of_Z 30) (float_of_Z 38)).
  vm_compute. reflexivity.
Defined.

(** Every row the docstring of the class shows for the sizes and waists
    columns comes out of the predicates as written there. *)
Theorem docstring_examples :
  are_where sizes "equal_to" [VStr "L"] = Ok [VStr "L"] /\
  are_where waists "above" [VInt 38] = Ok [VInt 42] /\
  are_where waists "above_or_equal_to" [VInt 38] = Ok [VInt 38; VInt 42] /\
  are_where waists "below" [VInt 38] = Ok [VInt 30; VInt 34] /\
  are_where waists "below_or_equal_to" [VInt 38] =
    Ok [VInt 30; VInt 34; VInt 38] /\
  are_where waists "strictly_between" [VInt 30; VInt 38] = Ok [VInt 34] /\
  are_where waists "between" [VInt 30; VInt 38] = Ok [VInt 30; VInt 34] /\
  are_where waists "between_or_equal_to" [VInt 30; VInt 38] =
    Ok [VInt 30; VInt 34; VInt 38] /\
  are_where waists "not_above" [VInt 38] = Ok [VInt 30; VInt 34; VInt 38] /\
  are_where waists "not_above_or_equal_to" [VInt 38] = Ok [VInt 30; VInt 34] /\
  are_where waists "not_below" [VInt 38] = Ok [VInt 38; VInt 42] /\
  are_where waists "not_below_or_equal_to" [VInt 38] = Ok [VInt 42] /\
  are_where waists "not_strictly_between" [VInt 30; VInt 38] =
    Ok [VInt 30; VInt 38; VInt 42] /\
  are_where waists "not_between" [VInt 30; VInt 38] = Ok [VInt 38; VInt 42] /\
  are_where waists "not_between_or_equal_to" [VInt 30; VInt 38] =
    Ok [VInt 42] /\
  are_where sizes "containing" [VStr "L"] = Ok [VStr "L"; VStr "XL"] /\
  are_where sizes "not_containing" [VStr "L"] = Ok [VStr "S"; VStr "M"] /\
  are_where sizes "contained_in" [VStr "MXL"] =
    Ok [VStr "M"; VStr "L"; VStr "XL"] /\
  are_where sizes "contained_in" [VStr "L"] = Ok [VStr "L"] /\
  are_where sizes "not_contained_in" [VStr "MXL"] = Ok [VStr "S"].
Proof. repeat split; vm_compute; reflexivity. Qed.

End Examples.
